(** * LocateFinderWSL: the search pipeline of [LocateGUI]

    A shallow embedding of [LocateFinderWSL.py]: the four methods of
    [LocateGUI] that carry behaviour ([start_search], [perform_search],
    [check_queue], [open_selected_file]) over an explicit record of the
    widget state, the inbox queue and the effects on the outside world
    (worker threads started, commands handed to [subprocess.run], timer
    callbacks registered with [root.after]). *)

From Stdlib Require Import Strings.String Strings.Ascii Numbers.DecimalString.
From Stdlib Require Import List NArith ZArith Bool Lia.
Import ListNotations.

Set Implicit Arguments.

(** ** Python strings *)

Module PyStr.

(** A Python [str] is a sequence of Unicode code points. *)
Definition char := N.
Definition str := list char.

(** Source literals are ASCII; [py "..."] is the [str] of such a literal. *)
Definition py (s : String.string) : str :=
  map Ascii.N_of_ascii (String.list_ascii_of_string s).
Arguments py s%_string.

(** Truth value of a string: [not s] holds exactly for the empty one. *)
Definition truthy (s : str) : bool :=
  match s with
  | [] => false
  | _ :: _ => true
  end.

(** [c.isspace()], the characters that [str.strip()] removes. *)
Definition isspace (c : char) : bool :=
  ((9 <=? c) && (c <=? 13)
   || (28 <=? c) && (c <=? 32)
   || (c =? 133) || (c =? 160) || (c =? 5760)
   || (8192 <=? c) && (c <=? 8202)
   || (c =? 8232) || (c =? 8233) || (c =? 8239) || (c =? 8287)
   || (c =? 12288))%N.

Fixpoint lstrip (s : str) : str :=
  match s with
  | [] => []
  | c :: s' => if isspace c then lstrip s' else s
  end.

Definition rstrip (s : str) : str := rev (lstrip (rev s)).

(** [s.strip()] *)
Definition strip (s : str) : str := rstrip (lstrip s).

(** [s.split(sep)] for a separator of one character. *)
Fixpoint split (sep : char) (s : str) : list str :=
  match s with
  | [] => [[]]
  | c :: s' =>
      if (c =? sep)%N then [] :: split sep s'
      else match split sep s' with
           | [] => [[c]]
           | piece :: pieces => (c :: piece) :: pieces
           end
  end.

Definition newline : char := 10%N.

(** [str(n)] for a length. *)
Definition str_of_nat (n : nat) : str :=
  py (DecimalString.NilEmpty.string_of_uint (Nat.to_uint n)).

End PyStr.
Import PyStr.
Arguments py s%_string.

(** ** Exceptions *)

Module PyExc.

Inductive exc_class : Type :=
| BaseException
| KeyboardInterrupt
| SystemExit
| Exception
| OSError
| FileNotFoundError
| PermissionError
| ValueError
| UnicodeDecodeError
| SubprocessError
| CalledProcessError
| AttributeError
| QueueEmpty.

Definition exc_class_eqb (a b : exc_class) : bool :=
  match a, b with
  | BaseException, BaseException
  | KeyboardInterrupt, KeyboardInterrupt
  | SystemExit, SystemExit
  | Exception, Exception
  | OSError, OSError
  | FileNotFoundError, FileNotFoundError
  | PermissionError, PermissionError
  | ValueError, ValueError
  | UnicodeDecodeError, UnicodeDecodeError
  | SubprocessError, SubprocessError
  | CalledProcessError, CalledProcessError
  | AttributeError, AttributeError
  | QueueEmpty, QueueEmpty => true
  | _, _ => false
  end.

(** The class itself followed by its bases, most specific first. *)
Definition mro (c : exc_class) : list exc_class :=
  match c with
  | BaseException => [BaseException]
  | KeyboardInterrupt => [KeyboardInterrupt; BaseException]
  | SystemExit => [SystemExit; BaseException]
  | Exception => [Exception; BaseException]
  | OSError => [OSError; Exception; BaseException]
  | FileNotFoundError => [FileNotFoundError; OSError; Exception; BaseException]
  | PermissionError => [PermissionError; OSError; Exception; BaseException]
  | ValueError => [ValueError; Exception; BaseException]
  | UnicodeDecodeError => [UnicodeDecodeError; ValueError; Exception; BaseException]
  | SubprocessError => [SubprocessError; Exception; BaseException]
  | CalledProcessError => [CalledProcessError; SubprocessError; Exception; BaseException]
  | AttributeError => [AttributeError; Exception; BaseException]
  | QueueEmpty => [QueueEmpty; Exception; BaseException]
  end.

Definition issubclass (c base : exc_class) : bool :=
  existsb (exc_class_eqb base) (mro c).

(** A raised exception: its class and the text [str(e)] gives. *)
Record exn : Type := mk_exn { exn_class : exc_class; exn_str : str }.

Definition isinstance (e : exn) (c : exc_class) : bool :=
  issubclass (exn_class e) c.

End PyExc.
Import PyExc.

(** ** [subprocess.run] *)

Module Subprocess.

Definition cmdline := list str.

(** Why a child process could not be started. *)
Inductive spawn_error : Type :=
| NoSuchFile
| AccessDenied
| OtherOSFailure
| BadArgument.

Definition spawn_error_class (k : spawn_error) : exc_class :=
  match k with
  | NoSuchFile => FileNotFoundError
  | AccessDenied => PermissionError
  | OtherOSFailure => OSError
  | BadArgument => ValueError
  end.

(** The bytes a child wrote to its standard output, seen through the
    UTF-8 decoder: a text, or the decoder's complaint. *)
Inductive captured : Type :=
| Text (s : str)
| Undecodable (why : str).

(** What the operating system does with a command line. *)
Inductive proc_response : Type :=
| SpawnFails (k : spawn_error) (why : str)
| Exited (returncode : Z) (out : captured).

Definition OS := cmdline -> proc_response.

Record CompletedProcess : Type :=
  mk_completed { args : cmdline; returncode : Z; stdout : option str }.

(** [subprocess.run(cmd, capture_output=capture, text=capture,
    encoding='utf-8')] with [check] left at its default [False], as at
    both call sites: the return code is stored in the result and never
    turned into an exception. *)
Definition run (os : OS) (cmd : cmdline) (capture : bool)
  : exn + CompletedProcess :=
  match os cmd with
  | SpawnFails k why => inl (mk_exn (spawn_error_class k) why)
  | Exited rc out =>
      if capture then
        match out with
        | Text s => inr (mk_completed cmd rc (Some s))
        | Undecodable why => inl (mk_exn UnicodeDecodeError why)
        end
      else inr (mk_completed cmd rc None)
  end.

End Subprocess.
Import Subprocess.

(** ** The state of a [LocateGUI] and of the world around it *)

Inductive button_state : Type := normal | disabled.

(** A message on the queue: the tuple [('results', paths)] or
    [('error', text)]. *)
Inductive message : Type :=
| results (paths : list str)
| error (text : str).

Record LocateGUI : Type := mk_gui {
  (* widgets and Tk variables *)
  search_var : str;
  ignore_case : bool;
  exist_only : bool;
  basename_only : bool;
  results_list : list str;          (* rows of the Listbox *)
  curselection : list nat;          (* indices of the selected rows *)
  progress_gridded : bool;          (* progress bar shown by grid() *)
  progress_running : bool;          (* progress bar animated by start() *)
  search_button : button_state;
  status_var : str;
  (* thread communication *)
  queue : list message;             (* oldest message first *)
  (* the world *)
  threads : list str;               (* started workers, by their search_term *)
  run_calls : list cmdline;         (* commands given to subprocess.run *)
  after_calls : list nat            (* delays of pending root.after(check_queue) *)
}.

Definition set_search_var (v : str) (g : LocateGUI) : LocateGUI :=
  mk_gui v (ignore_case g) (exist_only g) (basename_only g) (results_list g)
    (curselection g) (progress_gridded g) (progress_running g)
    (search_button g) (status_var g) (queue g) (threads g) (run_calls g)
    (after_calls g).

Definition set_options (ic eo bo : bool) (g : LocateGUI) : LocateGUI :=
  mk_gui (search_var g) ic eo bo (results_list g)
    (curselection g) (progress_gridded g) (progress_running g)
    (search_button g) (status_var g) (queue g) (threads g) (run_calls g)
    (after_calls g).

Definition set_results_list (v : list str) (g : LocateGUI) : LocateGUI :=
  mk_gui (search_var g) (ignore_case g) (exist_only g) (basename_only g) v
    (curselection g) (progress_gridded g) (progress_running g)
    (search_button g) (status_var g) (queue g) (threads g) (run_calls g)
    (after_calls g).

Definition set_curselection (v : list nat) (g : LocateGUI) : LocateGUI :=
  mk_gui (search_var g) (ignore_case g) (exist_only g) (basename_only g)
    (results_list g) v (progress_gridded g) (progress_running g)
    (search_button g) (status_var g) (queue g) (threads g) (run_calls g)
    (after_calls g).

Definition set_progress_gridded (v : bool) (g : LocateGUI) : LocateGUI :=
  mk_gui (search_var g) (ignore_case g) (exist_only g) (basename_only g)
    (results_list g) (curselection g) v (progress_running g)
    (search_button g) (status_var g) (queue g) (threads g) (run_calls g)
    (after_calls g).

Definition set_progress_running (v : bool) (g : LocateGUI) : LocateGUI :=
  mk_gui (search_var g) (ignore_case g) (exist_only g) (basename_only g)
    (results_list g) (curselection g) (progress_gridded g) v
    (search_button g) (status_var g) (queue g) (threads g) (run_calls g)
    (after_calls g).

Definition set_search_button (v : button_state) (g : LocateGUI) : LocateGUI :=
  mk_gui (search_var g) (ignore_case g) (exist_only g) (basename_only g)
    (results_list g) (curselection g) (progress_gridded g) (progress_running g)
    v (status_var g) (queue g) (threads g) (run_calls g) (after_calls g).

Definition set_status_var (v : str) (g : LocateGUI) : LocateGUI :=
  mk_gui (search_var g) (ignore_case g) (exist_only g) (basename_only g)
    (results_list g) (curselection g) (progress_gridded g) (progress_running g)
    (search_button g) v (queue g) (threads g) (run_calls g) (after_calls g).

Definition set_queue (v : list message) (g : LocateGUI) : LocateGUI :=
  mk_gui (search_var g) (ignore_case g) (exist_only g) (basename_only g)
    (results_list g) (curselection g) (progress_gridded g) (progress_running g)
    (search_button g) (status_var g) v (threads g) (run_calls g) (after_calls g).

Definition set_threads (v : list str) (g : LocateGUI) : LocateGUI :=
  mk_gui (search_var g) (ignore_case g) (exist_only g) (basename_only g)
    (results_list g) (curselection g) (progress_gridded g) (progress_running g)
    (search_button g) (status_var g) (queue g) v (run_calls g) (after_calls g).

Definition set_run_calls (v : list cmdline) (g : LocateGUI) : LocateGUI :=
  mk_gui (search_var g) (ignore_case g) (exist_only g) (basename_only g)
    (results_list g) (curselection g) (progress_gridded g) (progress_running g)
    (search_button g) (status_var g) (queue g) (threads g) v (after_calls g).

Definition set_after_calls (v : list nat) (g : LocateGUI) : LocateGUI :=
  mk_gui (search_var g) (ignore_case g) (exist_only g) (basename_only g)
    (results_list g) (curselection g) (progress_gridded g) (progress_running g)
    (search_button g) (status_var g) (queue g) (threads g) (run_calls g) v.

(** ** Method bodies: state, exceptions and a bound on loop iterations *)

Inductive outcome (A : Type) : Type :=
| Ret (a : A)
| Raise (e : exn)
| OutOfFuel.
Arguments Raise {A} e.
Arguments OutOfFuel {A}.

Definition M (A : Type) : Type := LocateGUI -> outcome A * LocateGUI.

Definition ret {A} (a : A) : M A := fun g => (Ret a, g).

Definition bind {A B} (c : M A) (k : A -> M B) : M B :=
  fun g =>
    match c g with
    | (Ret a, g') => k a g'
    | (Raise e, g') => (Raise e, g')
    | (OutOfFuel, g') => (OutOfFuel, g')
    end.

Definition raise {A} (e : exn) : M A := fun g => (Raise e, g).

Definition gets {A} (field : LocateGUI -> A) : M A := fun g => (Ret (field g), g).

Definition modify (f : LocateGUI -> LocateGUI) : M unit := fun g => (Ret tt, f g).

(** [try: body except cls as e: handler e] *)
Definition try_except {A} (body : M A) (cls : exc_class) (handler : exn -> M A)
  : M A :=
  fun g =>
    match body g with
    | (Raise e, g') => if isinstance e cls then handler e g' else (Raise e, g')
    | r => r
    end.

Notation "x <- c1 ;; c2" := (bind c1 (fun x => c2))
  (at level 61, c1 at next level, right associativity).
Notation "c1 ;; c2" := (bind c1 (fun _ => c2))
  (at level 61, right associativity).

(** [while True: body], unrolled at most [fuel] times. *)
Fixpoint while_true (fuel : nat) (body : M unit) : M unit :=
  match fuel with
  | O => fun g => (OutOfFuel, g)
  | S fuel' => body ;; while_true fuel' body
  end.

(** [for x in xs: body x] *)
Fixpoint for_each {A} (xs : list A) (body : A -> M unit) : M unit :=
  match xs with
  | [] => ret tt
  | x :: xs' => body x ;; for_each xs' body
  end.

(** ** Widget, queue and world primitives *)

Module Tk.

(** [self.results_list.delete(0, tk.END)]: every row goes, and the
    selection with them. *)
Definition results_list_delete_all : M unit :=
  modify (fun g => set_curselection [] (set_results_list [] g)).

(** [self.results_list.insert(tk.END, path)] *)
Definition results_list_insert_end (path : str) : M unit :=
  modify (fun g => set_results_list (results_list g ++ [path]) g).

(** [self.results_list.get(i)]: a row, or the empty string past the end. *)
Definition results_list_get (i : nat) : M str :=
  gets (fun g => nth i (results_list g) []).

Definition progress_bar_grid : M unit := modify (set_progress_gridded true).
Definition progress_bar_grid_remove : M unit := modify (set_progress_gridded false).
Definition progress_bar_start : M unit := modify (set_progress_running true).
Definition progress_bar_stop : M unit := modify (set_progress_running false).

Definition search_button_configure (st : button_state) : M unit :=
  modify (set_search_button st).

Definition status_var_set (s : str) : M unit := modify (set_status_var s).

(** [self.root.after(ms, self.check_queue)] *)
Definition root_after (ms : nat) : M unit :=
  modify (fun g => set_after_calls (after_calls g ++ [ms]) g).

End Tk.
Import Tk.

(** [self.queue.put(m)] on an unbounded queue: never blocks, never raises. *)
Definition queue_put (m : message) : M unit :=
  modify (fun g => set_queue (queue g ++ [m]) g).

(** [self.queue.get_nowait()]: the oldest message, or [queue.Empty]. *)
Definition queue_get_nowait : M message :=
  fun g =>
    match queue g with
    | [] => (Raise (mk_exn QueueEmpty []), g)
    | m :: rest => (Ret m, set_queue rest g)
    end.

(** [threading.Thread(target=self.perform_search, args=(search_term,))]
    made a daemon and started. *)
Definition thread_start (search_term : str) : M unit :=
  modify (fun g => set_threads (threads g ++ [search_term]) g).

(** [subprocess.run] as a step of a method: the command is recorded, then
    the operating system answers. *)
Definition subprocess_run (os : OS) (cmd : cmdline) (capture : bool)
  : M CompletedProcess :=
  fun g =>
    let g' := set_run_calls (run_calls g ++ [cmd]) g in
    match run os cmd capture with
    | inl e => (Raise e, g')
    | inr r => (Ret r, g')
    end.

(** [result.stdout] as a [str]; on [None] the method call that follows
    raises [AttributeError]. *)
Definition stdout_str (r : CompletedProcess) : M str :=
  match stdout r with
  | Some s => ret s
  | None => raise (mk_exn AttributeError
                     (py "'NoneType' object has no attribute 'strip'"))
  end.

(** ** The methods of [LocateGUI] *)

Definition start_search : M unit :=
  search_term <- gets search_var ;;
  if negb (truthy search_term) then
    status_var_set (py "Please enter a search term")
  else
    results_list_delete_all ;;
    progress_bar_grid ;;
    progress_bar_start ;;
    search_button_configure disabled ;;
    status_var_set (py "Searching...") ;;
    thread_start search_term.

Definition perform_search (os : OS) (search_term : str) : M unit :=
  try_except
    (let cmd := [py "wsl"; py "locate"] in
     ic <- gets ignore_case ;;
     let cmd := if ic then cmd ++ [py "--ignore-case"] else cmd in
     eo <- gets exist_only ;;
     let cmd := if eo then cmd ++ [py "--existing"] else cmd in
     bo <- gets basename_only ;;
     let cmd := if bo then cmd ++ [py "--basename"] else cmd in
     let cmd := cmd ++ [search_term] in
     result <- subprocess_run os cmd true ;;
     out <- stdout_str result ;;
     let paths := split newline (strip out) in
     let paths := filter truthy paths in
     queue_put (results paths))
    Exception
    (fun e => queue_put (error (exn_str e))).

(** One turn of the loop in [check_queue]. *)
Definition check_queue_body : M unit :=
  m <- queue_get_nowait ;;
  match m with
  | results data =>
      for_each data results_list_insert_end ;;
      status_var_set (py "Found " ++ str_of_nat (length data) ++ py " results") ;;
      progress_bar_stop ;;
      progress_bar_grid_remove ;;
      search_button_configure normal
  | error data =>
      status_var_set (py "Error: " ++ data) ;;
      progress_bar_stop ;;
      progress_bar_grid_remove ;;
      search_button_configure normal
  end.

Definition check_queue (fuel : nat) : M unit :=
  try_except (while_true fuel check_queue_body) Exception (fun _ => ret tt) ;;
  root_after 100.

Definition open_selected_file (os : OS) : M unit :=
  selection <- gets curselection ;;
  match selection with
  | [] => ret tt
  | first :: _ =>
      wsl_path <- results_list_get first ;;
      try_except
        (result <- subprocess_run os [py "wsl"; py "wslpath"; py "-w"; wsl_path] true ;;
         out <- stdout_str result ;;
         let windows_path := strip out in
         subprocess_run os [py "explorer.exe"; py "/select,"; windows_path] false ;;
         ret tt)
        CalledProcessError
        (fun e => status_var_set (py "Error opening file: " ++ exn_str e))
  end.

(** The object as [__init__] leaves it just before its last statement, the
    first call of [check_queue]. *)
Definition new_gui : LocateGUI :=
  {| search_var := [];
     ignore_case := true;
     exist_only := true;
     basename_only := false;
     results_list := [];
     curselection := [];
     progress_gridded := false;
     progress_running := false;
     search_button := normal;
     status_var := [];
     queue := [];
     threads := [];
     run_calls := [];
     after_calls := [] |}.

Definition init : LocateGUI := snd (check_queue 1 new_gui).

(** ** The event loop *)

(** What happens to a running application: what the user does to the
    widgets bound in [__init__], a started worker thread running to its
    end, and the timer set by [root.after] firing. *)
Inductive event : Type :=
| EditEntry (s : str)
| SetOptions (ic eo bo : bool)
| ClickSearch
| PressReturn
| SelectRow (i : nat)
| DoubleClick
| WorkerRuns (n : nat)
| TimerFires.

Fixpoint remove_nth {A} (n : nat) (l : list A) : list A :=
  match n, l with
  | _, [] => []
  | O, _ :: l' => l'
  | S n', x :: l' => x :: remove_nth n' l'
  end.

(** A callback that raises is reported by Tk and the loop goes on with the
    state the callback left. *)
Definition step (os : OS) (e : event) (g : LocateGUI) : LocateGUI :=
  match e with
  | EditEntry s => set_search_var s g
  | SetOptions ic eo bo => set_options ic eo bo g
  | ClickSearch =>
      match search_button g with
      | normal => snd (start_search g)
      | disabled => g
      end
  | PressReturn => snd (start_search g)
  | SelectRow i =>
      if i <? length (results_list g) then set_curselection [i] g else g
  | DoubleClick => snd (open_selected_file os g)
  | WorkerRuns n =>
      match nth_error (threads g) n with
      | Some search_term =>
          snd (perform_search os search_term
                 (set_threads (remove_nth n (threads g)) g))
      | None => g
      end
  | TimerFires =>
      match after_calls g with
      | [] => g
      | _ :: pending =>
          snd (check_queue (S (length (queue g))) (set_after_calls pending g))
      end
  end.

Definition run_events (os : OS) (es : list event) (g : LocateGUI) : LocateGUI :=
  fold_left (fun g e => step os e g) es g.

(** ** What the specification calls the lines of the output *)

(** The output split into lines, the empty lines discarded, the others
    kept in order. *)
Definition nonempty_lines (out : str) : list str :=
  filter truthy (split newline out).

(** ** Closed forms used in the statements *)

(** The flags [perform_search] derives from the three option variables. *)
Definition locate_flags (g : LocateGUI) : list str :=
  (if ignore_case g then [py "--ignore-case"] else [])
  ++ (if exist_only g then [py "--existing"] else [])
  ++ (if basename_only g then [py "--basename"] else []).

Definition locate_command (g : LocateGUI) (search_term : str) : cmdline :=
  [py "wsl"; py "locate"] ++ locate_flags g ++ [search_term].

(** The message a search puts on the queue, from what [subprocess.run]
    gave. *)
Definition search_message (r : exn + CompletedProcess) : message :=
  match r with
  | inl e => error (exn_str e)
  | inr done =>
      match stdout done with
      | Some out => results (filter truthy (split newline (strip out)))
      | None => error (py "'NoneType' object has no attribute 'strip'")
      end
  end.

(** The widgets after one message has been shown. *)
Definition deliver (m : message) (g : LocateGUI) : LocateGUI :=
  match m with
  | results data =>
      set_search_button normal
        (set_progress_gridded false
           (set_progress_running false
              (set_status_var
                 (py "Found " ++ str_of_nat (length data) ++ py " results")
                 (set_results_list (results_list g ++ data) g))))
  | error data =>
      set_search_button normal
        (set_progress_gridded false
           (set_progress_running false
              (set_status_var (py "Error: " ++ data) g)))
  end.

(** An operating system that answers every command the same way. *)
Definition always (r : proc_response) : OS := fun _ => r.

(** ** Scenarios *)

Fixpoint str_eqb (a b : str) : bool :=
  match a, b with
  | [], [] => true
  | x :: a', y :: b' => (x =? y)%N && str_eqb a' b'
  | _, _ => false
  end.

(** [locate] prints one path, of a file whose name ends in a space. *)
Definition os_trailing_space : OS :=
  always (Exited 0 (Text (py "/a/b " ++ [newline]))).


(** [locate] finds [/mnt/c/x]; [wslpath] exits with status 1 and prints
    nothing on its standard output; every other command exits with 1. *)
Definition os_wslpath_fails : OS :=
  fun cmd =>
    if str_eqb (nth 1 cmd []) (py "locate")
    then Exited 0 (Text (py "/mnt/c/x" ++ [newline]))
    else Exited 1 (Text []).

(** No command can be started. *)
Definition os_no_wsl : OS :=
  always (SpawnFails NoSuchFile
            (py "[WinError 2] The system cannot find the file specified")).

(** Two outcomes waiting on the queue. *)
Definition gui_two_pending : LocateGUI :=
  set_queue [results [py "/x/a"; py "/x/b"]; error (py "boom")] init.

(** ** Readings of a message and of the state *)

(** The rows a message adds to the list. *)
Definition paths_of (m : message) : list str :=
  match m with
  | results data => data
  | error _ => []
  end.

(** The status line a message leaves. *)
Definition status_of (m : message) : str :=
  match m with
  | results data => py "Found " ++ str_of_nat (length data) ++ py " results"
  | error data => py "Error: " ++ data
  end.

(** The application between two events: one call of [check_queue] is
    pending, and the progress bar is shown and running exactly while the
    search button is disabled. *)
Definition steady (g : LocateGUI) : Prop :=
  after_calls g = [100]
  /\ progress_gridded g = progress_running g
  /\ search_button g = (if progress_running g then disabled else normal).


(** * Properties *)

(** ** Strings *)

Section StringFacts.

Lemma split_not_nil (sep : char) (s : str) : split sep s <> [].
Proof.
  destruct s as [|c s]; simpl; [discriminate|].
  destruct (c =? sep)%N; [discriminate|].
  destruct (split sep s); discriminate.
Qed.

Lemma split_app_sep (sep : char) (a b : str) :
  split sep (a ++ sep :: b) = split sep a ++ split sep b.
Proof.
  induction a as [|c a IH]; simpl.
  - now rewrite N.eqb_refl.
  - rewrite IH. destruct (c =? sep)%N; [reflexivity|].
    destruct (split sep a) eqn:E; [|reflexivity].
    now destruct (split_not_nil sep a).
Qed.

Lemma split_repeat_sep (sep : char) (k : nat) :
  split sep (repeat sep k) = repeat [] (S k).
Proof.
  induction k as [|k IH]; [reflexivity|].
  cbn [repeat split]. rewrite N.eqb_refl, IH. reflexivity.
Qed.

Lemma filter_truthy_repeat_nil (k : nat) :
  filter truthy (repeat ([] : str) k) = [].
Proof. induction k; simpl; auto. Qed.

Lemma lstrip_length (s : str) : length (lstrip s) <= length s.
Proof.
  induction s as [|c s IH]; simpl; [lia|].
  destruct (isspace c); simpl; lia.
Qed.

Lemma lstrip_all_space (s t : str) :
  forallb isspace s = true -> lstrip (s ++ t) = lstrip t.
Proof.
  induction s as [|c s IH]; simpl; [reflexivity|].
  intros H. apply andb_prop in H. destruct H as [Hc Hs].
  rewrite Hc. auto.
Qed.

Lemma lstrip_fixed_app (s t : str) :
  s <> [] -> lstrip s = s -> lstrip (s ++ t) = s ++ t.
Proof.
  destruct s as [|c s]; [congruence|]. intros _. simpl.
  destruct (isspace c) eqn:E; [|reflexivity].
  intros H. pose proof (lstrip_length s) as L.
  rewrite H in L. simpl in L. lia.
Qed.

Lemma forallb_isspace_repeat_newline (k : nat) :
  forallb isspace (repeat newline k) = true.
Proof. induction k; simpl; auto. Qed.

Lemma rev_repeat {A} (x : A) (k : nat) : rev (repeat x k) = repeat x k.
Proof.
  induction k as [|k IH]; [reflexivity|].
  simpl. rewrite IH. clear IH.
  induction k as [|k IH]; [reflexivity|].
  simpl. now rewrite IH.
Qed.

Lemma rstrip_all_space (s t : str) :
  forallb isspace t = true -> rstrip (s ++ t) = rstrip s.
Proof.
  intros H. unfold rstrip. rewrite rev_app_distr.
  rewrite lstrip_all_space; [reflexivity|].
  rewrite forallb_forall in *. intros c Hc.
  apply H. now apply in_rev.
Qed.

(** Stripping a text made of whitespace only leaves nothing. *)
Lemma strip_all_space (s : str) :
  forallb isspace s = true -> strip s = [].
Proof.
  intros H. unfold strip.
  rewrite <- (app_nil_r s), lstrip_all_space by assumption.
  reflexivity.
Qed.

(** A block with no whitespace at either end, followed by line feeds
    only, is stripped to the block. *)
Lemma strip_block_newlines (body : str) (k : nat) :
  lstrip body = body -> rstrip body = body ->
  strip (body ++ repeat newline k) = body.
Proof.
  intros Hl Hr. unfold strip.
  destruct body as [|c body].
  - simpl. rewrite <- (app_nil_r (repeat newline k)).
    rewrite lstrip_all_space by apply forallb_isspace_repeat_newline.
    reflexivity.
  - rewrite lstrip_fixed_app by (assumption || discriminate).
    rewrite rstrip_all_space by apply forallb_isspace_repeat_newline.
    assumption.
Qed.

Lemma nonempty_lines_block_newlines (body : str) (k : nat) :
  nonempty_lines (body ++ repeat newline k) = nonempty_lines body.
Proof.
  unfold nonempty_lines. destruct k as [|k].
  - simpl. now rewrite app_nil_r.
  - cbn [repeat]. rewrite split_app_sep, filter_app, split_repeat_sep.
    rewrite filter_truthy_repeat_nil. apply app_nil_r.
Qed.

End StringFacts.

(** ** The methods in closed form *)

Section ClosedForms.

Variable os : OS.

Lemma perform_search_eq (search_term : str) (g : LocateGUI) :
  perform_search os search_term g =
  (Ret tt,
   set_queue
     (queue g ++ [search_message (run os (locate_command g search_term) true)])
     (set_run_calls (run_calls g ++ [locate_command g search_term]) g)).
Proof.
  unfold perform_search, try_except, bind, gets, subprocess_run, stdout_str,
    queue_put, modify, ret, locate_command, locate_flags, search_message.
  destruct g as [sv ic eo bo rl cs pg pr sb st q th rc ac]; cbn [ignore_case
    exist_only basename_only queue run_calls set_run_calls set_queue].
  destruct ic, eo, bo; cbn [app];
    match goal with
    | |- context [run os ?c true] => unfold run; destruct (os c) as [[] why|code [out|why]]
    end; reflexivity.
Qed.

Lemma set_queue_same (g : LocateGUI) : set_queue (queue g) g = g.
Proof. now destruct g. Qed.

Lemma set_queue_twice (q q' : list message) (g : LocateGUI) :
  set_queue q (set_queue q' g) = set_queue q g.
Proof. reflexivity. Qed.

Lemma deliver_set_queue (m : message) (q : list message) (g : LocateGUI) :
  deliver m (set_queue q g) = set_queue q (deliver m g).
Proof. now destruct m. Qed.

Lemma queue_deliver (m : message) (g : LocateGUI) :
  queue (deliver m g) = queue g.
Proof. now destruct m. Qed.

Lemma queue_fold_deliver (ms : list message) (g : LocateGUI) :
  queue (fold_left (fun g m => deliver m g) ms g) = queue g.
Proof.
  revert g. induction ms as [|m ms IH]; intros g; simpl; [reflexivity|].
  now rewrite IH, queue_deliver.
Qed.

(** The [for] loop over the paths appends them all, in order. *)
Lemma for_each_insert_end (data : list str) (g : LocateGUI) :
  for_each data results_list_insert_end g =
  (Ret tt, set_results_list (results_list g ++ data) g).
Proof.
  revert g. induction data as [|path data IH]; intros g.
  - simpl. unfold ret. rewrite app_nil_r. now destruct g.
  - cbn [for_each]. unfold bind at 1.
    unfold results_list_insert_end at 1, modify.
    rewrite IH. cbn. now rewrite <- app_assoc.
Qed.

(** One turn of the loop: the oldest message is taken off the queue and
    shown, or [queue.Empty] is raised with nothing changed. *)
Lemma check_queue_body_eq (g : LocateGUI) :
  check_queue_body g =
  match queue g with
  | [] => (Raise (mk_exn QueueEmpty []), g)
  | m :: rest => (Ret tt, deliver m (set_queue rest g))
  end.
Proof.
  unfold check_queue_body, bind at 1, queue_get_nowait.
  destruct (queue g) as [|[data|text] rest]; [reflexivity| |reflexivity].
  unfold bind at 1. rewrite for_each_insert_end. reflexivity.
Qed.

Lemma while_true_drains (q : list message) :
  forall (g : LocateGUI) (fuel : nat),
    queue g = q -> length q < fuel ->
    while_true fuel check_queue_body g =
    (Raise (mk_exn QueueEmpty []),
     fold_left (fun g m => deliver m g) q (set_queue [] g)).
Proof.
  induction q as [|m rest IH]; intros g fuel Hq Hfuel;
    (destruct fuel as [|fuel]; [simpl in Hfuel; lia|]);
    cbn [while_true]; unfold bind at 1; rewrite check_queue_body_eq, Hq.
  - simpl. now rewrite <- Hq, set_queue_same.
  - rewrite IH; [|now rewrite queue_deliver|simpl in Hfuel; lia].
    cbn [fold_left]. now rewrite !deliver_set_queue.
Qed.

Lemma check_queue_eq (g : LocateGUI) (fuel : nat) :
  length (queue g) < fuel ->
  check_queue fuel g =
  (Ret tt,
   snd (root_after 100
          (fold_left (fun g m => deliver m g) (queue g) (set_queue [] g)))).
Proof.
  intros Hfuel. unfold check_queue, bind, try_except.
  rewrite (@while_true_drains (queue g) g fuel eq_refl Hfuel). reflexivity.
Qed.

Lemma start_search_nonempty (g : LocateGUI) :
  truthy (search_var g) = true ->
  start_search g =
  (Ret tt,
   set_threads (threads g ++ [search_var g])
     (set_status_var (py "Searching...")
        (set_search_button disabled
           (set_progress_running true
              (set_progress_gridded true
                 (set_curselection [] (set_results_list [] g))))))).
Proof.
  intros H. unfold start_search, bind at 1, gets. rewrite H. reflexivity.
Qed.

(** X10. [open_selected_file] never writes the status line, the rows
    nor the queue, whatever is selected and whatever the operating system
    answers: its
    handler is for [CalledProcessError], which [subprocess.run] does not
    raise at its default [check=False]. *)
Lemma open_selected_file_keeps (g : LocateGUI) :
  status_var (snd (open_selected_file os g)) = status_var g
  /\ results_list (snd (open_selected_file os g)) = results_list g
  /\ queue (snd (open_selected_file os g)) = queue g.
Proof.
  unfold open_selected_file, bind, gets, results_list_get, try_except,
    subprocess_run, run, stdout_str, ret.
  destruct (curselection g) as [|first rest]; [auto|].
  cbn.
  repeat match goal with
         | |- context [os ?c] =>
             destruct (os c) as [[] ?|? [?|?]]; cbn; auto
         end.
Qed.

End ClosedForms.

(** ** The search dispatcher *)

(** C1. For every search term handed to a worker, in every state and
    whatever the operating system answers, [perform_search] returns
    normally, so no exception leaves it, and it has put exactly one
    message on the queue: [results] when [subprocess.run] returned,
    [error] carrying the text of the exception when it raised. Apart from
    the record of the command run, nothing else has changed. *)
Theorem perform_search_one_outcome (os : OS) (search_term : str) (g : LocateGUI) :
  exists (cmd : cmdline) (m : message),
    perform_search os search_term g =
    (Ret tt, set_queue (queue g ++ [m]) (set_run_calls (run_calls g ++ [cmd]) g))
    /\ match run os cmd true with
       | inr _ => exists paths, m = results paths
       | inl e => m = error (exn_str e)
       end.
Proof.
  exists (locate_command g search_term).
  exists (search_message (run os (locate_command g search_term) true)).
  split; [apply perform_search_eq|].
  unfold run. destruct (os _) as [k why|code [out|why]]; cbn; eauto.
Qed.

(** C3. The command [perform_search] runs is [wsl locate], then the
    flags, then the search term as last argument; among the flags
    [--ignore-case] occurs iff [ignore_case] is set, [--existing] iff
    [exist_only] is set and [--basename] iff [basename_only] is set, in
    that order. With ignore_case on, exist_only off, basename_only on and
    the term [x] the command is exactly
    [wsl locate --ignore-case --basename x]. *)
Theorem locate_command_flags :
  (forall (os : OS) (search_term : str) (g : LocateGUI),
      exists flags : list str,
        run_calls (snd (perform_search os search_term g)) =
        run_calls g ++ [[py "wsl"; py "locate"] ++ flags ++ [search_term]]
        /\ flags =
           (if ignore_case g then [py "--ignore-case"] else [])
           ++ (if exist_only g then [py "--existing"] else [])
           ++ (if basename_only g then [py "--basename"] else [])
        /\ (In (py "--ignore-case") flags <-> ignore_case g = true)
        /\ (In (py "--existing") flags <-> exist_only g = true)
        /\ (In (py "--basename") flags <-> basename_only g = true))
  /\ (forall (os : OS) (g : LocateGUI),
        run_calls (snd (perform_search os (py "x")
                          (set_options true false true g))) =
        run_calls g
        ++ [[py "wsl"; py "locate"; py "--ignore-case"; py "--basename"; py "x"]]).
Proof.
  split.
  - intros os search_term g. exists (locate_flags g).
    rewrite perform_search_eq. split; [reflexivity|].
    split; [reflexivity|]. unfold locate_flags.
    destruct (ignore_case g), (exist_only g), (basename_only g);
      vm_compute; repeat split; intros H; try reflexivity; try discriminate;
      intuition discriminate.
  - intros os g. rewrite perform_search_eq. reflexivity.
Qed.

(** C4 (amended). On a successful run [perform_search] first strips
    the whitespace at both ends of the whole captured text, then splits it
    at line feeds, discards exactly the empty lines and keeps the others in
    order. So whenever the text is a block with no whitespace at either
    end followed by line feeds only, the result is the non-empty lines of
    the text itself; the lines [a/b/c], empty, [a/b/d] give exactly
    [a/b/c] and [a/b/d]. *)
Theorem perform_search_lines :
  (forall (search_term : str) (g : LocateGUI) (rc : Z) (out : str),
      queue (snd (perform_search (always (Exited rc (Text out))) search_term g)) =
      queue g ++ [results (nonempty_lines (strip out))])
  /\ (forall (search_term : str) (g : LocateGUI) (rc : Z) (body : str) (k : nat),
        lstrip body = body -> rstrip body = body ->
        queue (snd (perform_search
                      (always (Exited rc (Text (body ++ repeat newline k))))
                      search_term g)) =
        queue g ++ [results (nonempty_lines (body ++ repeat newline k))])
  /\ (forall (search_term : str) (g : LocateGUI) (rc : Z),
        queue (snd (perform_search
                      (always (Exited rc
                                 (Text (py "a/b/c" ++ [newline; newline]
                                        ++ py "a/b/d" ++ [newline]))))
                      search_term g)) =
        queue g ++ [results [py "a/b/c"; py "a/b/d"]]).
Proof.
  split; [|split]; intros; rewrite perform_search_eq; cbn [snd queue set_queue];
    unfold always, run, search_message; cbn [stdout].
  - reflexivity.
  - rewrite strip_block_newlines by assumption.
    now rewrite nonempty_lines_block_newlines.
  - reflexivity.
Qed.

Lemma perform_search_lines_witness :
  lstrip (py "/a/b") = py "/a/b" /\ rstrip (py "/a/b") = py "/a/b"
  /\ queue (snd (perform_search
                   (always (Exited 0 (Text (py "/a/b" ++ repeat newline 2))))
                   (py "b") init)) =
     queue init ++ [results (nonempty_lines (py "/a/b" ++ repeat newline 2))].
Proof.
  split; [reflexivity|]. split; [reflexivity|].
  apply (proj1 (proj2 perform_search_lines) (py "b") init 0%Z (py "/a/b") 2);
    reflexivity.
Defined.

(** C4 as stated fails: when [locate] prints the one line [/a/b ] (a file
    whose name ends in a space), the non-empty lines of the output are
    that line, but the path put on the queue is [/a/b]. *)
Lemma perform_search_lines_counterexample :
  nonempty_lines (py "/a/b " ++ [newline]) = [py "/a/b "]
  /\ queue (snd (perform_search os_trailing_space (py "b") init)) =
     [results [py "/a/b"]]
  /\ queue (snd (perform_search os_trailing_space (py "b") init)) <>
     queue init ++ [results (nonempty_lines (py "/a/b " ++ [newline]))].
Proof.
  split; [reflexivity|]. split; [reflexivity|].
  vm_compute. discriminate.
Qed.


(** C10. When [locate] runs and its captured output is empty or made
    of whitespace only, whatever its return code, [perform_search] returns
    normally and puts [results] with no path on the queue, not an
    [error]; shown by [check_queue] from an otherwise empty queue, it
    leaves the rows as they were and sets the status to
    [Found 0 results]. *)
Theorem whitespace_output_gives_no_results
  (search_term : str) (g : LocateGUI) (rc : Z) (out : str) (fuel : nat) :
  forallb isspace out = true ->
  let searched := perform_search (always (Exited rc (Text out))) search_term g in
  fst searched = Ret tt
  /\ queue (snd searched) = queue g ++ [results []]
  /\ (queue g = [] -> 1 < fuel ->
      let shown := snd (check_queue fuel (snd searched)) in
      status_var shown = py "Found 0 results"
      /\ results_list shown = results_list g).
Proof.
  intros Hspace searched. subst searched. rewrite perform_search_eq.
  unfold always, run, search_message. cbn [stdout fst snd].
  rewrite (strip_all_space _ Hspace). cbn [split filter truthy].
  split; [reflexivity|]. split; [reflexivity|].
  intros Hq Hfuel.
  rewrite check_queue_eq by (cbn; rewrite Hq; simpl; lia).
  cbn [queue set_queue set_run_calls]. rewrite Hq. cbn.
  split; [reflexivity|apply app_nil_r].
Qed.

Lemma whitespace_output_gives_no_results_witness :
  forallb isspace (py " " ++ [newline; 160%N; newline]) = true
  /\ status_var
       (snd (check_queue 2
               (snd (perform_search
                       (always (Exited 1 (Text (py " " ++ [newline; 160%N; newline]))))
                       (py "x") init)))) = py "Found 0 results".
Proof.
  split; [reflexivity|].
  apply (@whitespace_output_gives_no_results (py "x") init 1
           (py " " ++ [newline; 160%N; newline]) 2 eq_refl);
    [reflexivity|lia].
Defined.

(** ** The result presenter *)

(** C5. [check_queue] on an empty queue returns at once, having
    changed nothing but the registration of its next call; on a queue of N
    messages, for every N, it returns after having taken all N off the
    queue and shown each of them, oldest first, in that one call. In both
    cases the loop needs no more turns than there are messages, plus the
    one that finds the queue empty: it never waits. *)
Theorem check_queue_drains :
  (forall (g : LocateGUI) (fuel : nat),
      queue g = [] -> 0 < fuel ->
      check_queue fuel g = (Ret tt, set_after_calls (after_calls g ++ [100]) g))
  /\ (forall (N : nat) (g : LocateGUI) (fuel : nat),
        length (queue g) = N -> N < fuel ->
        check_queue fuel g =
        (Ret tt,
         set_after_calls (after_calls g ++ [100])
           (fold_left (fun g m => deliver m g) (queue g) (set_queue [] g)))
        /\ queue (snd (check_queue fuel g)) = []).
Proof.
  split.
  - intros g fuel Hq Hfuel.
    rewrite check_queue_eq by (rewrite Hq; simpl; lia).
    rewrite Hq. cbn [fold_left]. rewrite <- Hq, set_queue_same. reflexivity.
  - intros N g fuel HN Hfuel.
    rewrite check_queue_eq by lia.
    assert (Hac : forall ms h,
               after_calls (fold_left (fun g m => deliver m g) ms h) = after_calls h).
    { induction ms as [|m ms IH]; intros h; simpl; [reflexivity|].
      rewrite IH. now destruct m. }
    unfold root_after, modify. cbn [snd].
    rewrite Hac. cbn [after_calls set_queue]. split; [reflexivity|].
    cbn [queue set_after_calls]. now rewrite queue_fold_deliver.
Qed.

Lemma check_queue_drains_witness :
  length (queue gui_two_pending) = 2
  /\ queue (snd (check_queue 3 gui_two_pending)) = []
  /\ results_list (snd (check_queue 3 gui_two_pending)) = [py "/x/a"; py "/x/b"]
  /\ check_queue 1 init = (Ret tt, set_after_calls (after_calls init ++ [100]) init).
Proof.
  split; [reflexivity|].
  pose proof (proj2 check_queue_drains 2 gui_two_pending 3 eq_refl) as H.
  destruct H as [H1 H2]; [lia|].
  split; [exact H2|]. split; [rewrite H1; reflexivity|].
  apply (proj1 check_queue_drains init 1); [reflexivity|lia].
Defined.

(** C7. With an empty search entry [start_search] only sets the status
    to [Please enter a search term]: it returns normally, no thread is
    started, no command is run, and every other part of the state is as
    before. *)
Theorem start_search_empty_term (g : LocateGUI) :
  search_var g = [] ->
  start_search g = (Ret tt, set_status_var (py "Please enter a search term") g)
  /\ threads (snd (start_search g)) = threads g
  /\ run_calls (snd (start_search g)) = run_calls g
  /\ queue (snd (start_search g)) = queue g.
Proof.
  intros H. unfold start_search, bind, gets. rewrite H. cbn. auto.
Qed.

Lemma start_search_empty_term_witness :
  search_var init = []
  /\ start_search init =
     (Ret tt, set_status_var (py "Please enter a search term") init).
Proof.
  split; [reflexivity|].
  apply (@start_search_empty_term init). reflexivity.
Defined.

(** C9. With no row selected [open_selected_file] returns at once: no
    command is run and the state, status line included, is what it was. *)
Theorem open_selected_file_no_selection (os : OS) (g : LocateGUI) :
  curselection g = [] ->
  open_selected_file os g = (Ret tt, g)
  /\ run_calls (snd (open_selected_file os g)) = run_calls g
  /\ status_var (snd (open_selected_file os g)) = status_var g.
Proof.
  intros H. unfold open_selected_file, bind, gets. rewrite H. cbn. auto.
Qed.

Lemma open_selected_file_no_selection_witness :
  curselection init = []
  /\ open_selected_file os_no_wsl init = (Ret tt, init).
Proof.
  split; [reflexivity|].
  apply (@open_selected_file_no_selection os_no_wsl init). reflexivity.
Defined.

(** A single [error] message, shown by [check_queue]: the progress bar is
    stopped and hidden, the button is enabled, the status is [Error: ]
    followed by the text, and the rows are as they were. *)
Lemma check_queue_single_error (g : LocateGUI) (text : str) (fuel : nat) :
  queue g = [error text] -> 1 < fuel ->
  let shown := snd (check_queue fuel g) in
  progress_gridded shown = false
  /\ progress_running shown = false
  /\ search_button shown = normal
  /\ status_var shown = py "Error: " ++ text
  /\ results_list shown = results_list g.
Proof.
  intros Hq Hfuel. cbv zeta.
  rewrite check_queue_eq by (rewrite Hq; simpl; lia).
  rewrite Hq. cbn. auto.
Qed.




(** C2, at a failing input. One search has found [/mnt/c/x], the row is
    selected, and [wslpath] fails on it: it exits with status 1 and an
    empty standard output. [open_selected_file] then returns normally,
    having run [wslpath] and then [explorer.exe /select,] with an empty
    path; the status line still reads [Found 1 results] and the rows are
    unchanged. No error is reported. *)
Theorem open_selected_file_translation_failure :
  let g :=
    run_events os_wslpath_fails
      [EditEntry (py "x"); ClickSearch; WorkerRuns 0; TimerFires; SelectRow 0]
      init in
  results_list g = [py "/mnt/c/x"]
  /\ curselection g = [0]
  /\ status_var g = py "Found 1 results"
  /\ run os_wslpath_fails [py "wsl"; py "wslpath"; py "-w"; py "/mnt/c/x"] true =
     inr (mk_completed [py "wsl"; py "wslpath"; py "-w"; py "/mnt/c/x"] 1 (Some []))
  /\ open_selected_file os_wslpath_fails g =
     (Ret tt,
      set_run_calls
        (run_calls g
         ++ [[py "wsl"; py "wslpath"; py "-w"; py "/mnt/c/x"];
             [py "explorer.exe"; py "/select,"; []]]) g)
  /\ status_var (snd (open_selected_file os_wslpath_fails g)) =
     py "Found 1 results".
Proof.
  cbv zeta. split; [vm_compute; reflexivity|].
  split; [vm_compute; reflexivity|]. split; [vm_compute; reflexivity|].
  split; [vm_compute; reflexivity|]. split; vm_compute; reflexivity.
Qed.


(** * Further properties of the methods *)

(** ** Parsing the output of [locate] *)

Lemma split_pieces_no_sep (sep : char) (s p : str) :
  In p (split sep s) -> ~ In sep p.
Proof.
  revert p. induction s as [|c s IH]; intros p; simpl.
  - intros [<-|[]] [].
  - destruct (c =? sep)%N eqn:E.
    + intros [<-|H]; [intros []|auto].
    + destruct (split sep s) as [|piece pieces] eqn:Es.
      * intros [<-|[]] [->|[]]. now rewrite N.eqb_refl in E.
      * intros [<-|H].
        -- intros [->|Hin]; [now rewrite N.eqb_refl in E|].
           apply (IH piece); simpl; auto.
        -- apply IH. simpl. auto.
Qed.

Lemma lstrip_app (a b : str) :
  lstrip (a ++ b) = if forallb isspace a then lstrip b else lstrip a ++ b.
Proof.
  induction a as [|c a IH]; simpl; [reflexivity|].
  destruct (isspace c); simpl; [exact IH|reflexivity].
Qed.

Lemma strip_padding (pad1 out pad2 : str) :
  forallb isspace pad1 = true -> forallb isspace pad2 = true ->
  strip (pad1 ++ out ++ pad2) = strip out.
Proof.
  intros H1 H2. unfold strip.
  rewrite (lstrip_all_space _ _ H1), lstrip_app.
  destruct (forallb isspace out) eqn:E.
  - rewrite <- (app_nil_r pad2), (lstrip_all_space _ _ H2).
    rewrite <- (app_nil_r out), (lstrip_all_space _ _ E). reflexivity.
  - now apply rstrip_all_space.
Qed.

(** X3. Every path [perform_search] reports is one non-empty line:
    whatever text [locate] printed, no path in the [results] message is
    the empty string and none contains a line feed. *)
Theorem perform_search_paths_wellformed
  (search_term : str) (g : LocateGUI) (rc : Z) (out : str) :
  exists paths : list str,
    queue (snd (perform_search (always (Exited rc (Text out))) search_term g)) =
    queue g ++ [results paths]
    /\ Forall (fun p => p <> [] /\ ~ In newline p) paths.
Proof.
  rewrite perform_search_eq. eexists. split; [reflexivity|].
  apply Forall_forall. intros p Hp. apply filter_In in Hp.
  destruct Hp as [Hin Hne]. split.
  - now destruct p.
  - now apply split_pieces_no_sep in Hin.
Qed.

(** X4. Whitespace around the output of [locate] changes nothing: with
    any run of whitespace characters before the text and any after it
    (line feeds, spaces, a final carriage return), [perform_search] ends
    in the very same state as for the text alone. *)
Theorem perform_search_ignores_padding
  (search_term : str) (g : LocateGUI) (rc : Z) (pad1 out pad2 : str) :
  forallb isspace pad1 = true -> forallb isspace pad2 = true ->
  perform_search (always (Exited rc (Text (pad1 ++ out ++ pad2)))) search_term g =
  perform_search (always (Exited rc (Text out))) search_term g.
Proof.
  intros H1 H2. rewrite !perform_search_eq.
  unfold always, run, search_message. cbn [stdout].
  now rewrite strip_padding.
Qed.

Lemma perform_search_ignores_padding_witness :
  forallb isspace [newline; 32%N] = true
  /\ forallb isspace [13%N; newline; newline] = true
  /\ queue (snd (perform_search
                   (always (Exited 0 (Text ([newline; 32%N] ++ py "/a b"
                                            ++ [13%N; newline; newline]))))
                   (py "b") init)) = [results [py "/a b"]].
Proof.
  split; [reflexivity|]. split; [reflexivity|].
  rewrite (@perform_search_ignores_padding (py "b") init 0
             [newline; 32%N] (py "/a b") [13%N; newline; newline]
             eq_refl eq_refl).
  vm_compute. reflexivity.
Defined.

(** X2. The worker never touches a widget: after [perform_search],
    whatever the operating system did, the entry, the three options, the
    rows, the selection, the progress bar, the button and the status line
    are what they were, no thread was started and no timer registered;
    only the queue and the record of commands have grown, by one each. *)
Theorem perform_search_leaves_widgets
  (os : OS) (search_term : str) (g : LocateGUI) :
  let g' := snd (perform_search os search_term g) in
  search_var g' = search_var g
  /\ (ignore_case g', exist_only g', basename_only g') =
     (ignore_case g, exist_only g, basename_only g)
  /\ results_list g' = results_list g
  /\ curselection g' = curselection g
  /\ (progress_gridded g', progress_running g') =
     (progress_gridded g, progress_running g)
  /\ search_button g' = search_button g
  /\ status_var g' = status_var g
  /\ threads g' = threads g
  /\ after_calls g' = after_calls g
  /\ length (queue g') = S (length (queue g))
  /\ length (run_calls g') = S (length (run_calls g)).
Proof.
  cbv zeta. rewrite perform_search_eq. cbn [snd].
  repeat (split; [reflexivity|]).
  cbn [queue run_calls set_queue set_run_calls].
  rewrite !length_app. simpl. split; lia.
Qed.

(** ** Showing several messages in one call of [check_queue] *)

Section Delivery.

Lemma results_list_fold_deliver (ms : list message) (g : LocateGUI) :
  results_list (fold_left (fun g m => deliver m g) ms g) =
  results_list g ++ concat (map paths_of ms).
Proof.
  revert g. induction ms as [|m ms IH]; intros g; simpl.
  - now rewrite app_nil_r.
  - rewrite IH, app_assoc. f_equal. destruct m; simpl; now rewrite ?app_nil_r.
Qed.

Lemma after_calls_fold_deliver (ms : list message) (g : LocateGUI) :
  after_calls (fold_left (fun g m => deliver m g) ms g) = after_calls g.
Proof.
  revert g. induction ms as [|m ms IH]; intros g; simpl; [reflexivity|].
  rewrite IH. now destruct m.
Qed.

Lemma frame_fold_deliver (ms : list message) (g : LocateGUI) :
  let g' := fold_left (fun g m => deliver m g) ms g in
  search_var g' = search_var g
  /\ curselection g' = curselection g
  /\ threads g' = threads g
  /\ run_calls g' = run_calls g.
Proof.
  revert g. induction ms as [|m ms IH]; intros g; cbv zeta; simpl; [auto|].
  destruct (IH (deliver m g)) as (H1 & H2 & H3 & H4).
  rewrite H1, H2, H3, H4. now destruct m.
Qed.

End Delivery.

(** X5. One call of [check_queue] adds to the rows already shown the
    paths of every pending [results] message, message after message in
    queue order, and nothing for an [error]: rows are only ever appended,
    never cleared, by the poll. *)
Theorem check_queue_rows_accumulate (g : LocateGUI) (fuel : nat) :
  length (queue g) < fuel ->
  results_list (snd (check_queue fuel g)) =
  results_list g ++ concat (map paths_of (queue g)).
Proof.
  intros Hfuel. rewrite (check_queue_eq g Hfuel).
  unfold root_after, modify. cbn [snd results_list set_after_calls].
  now rewrite results_list_fold_deliver.
Qed.

Lemma check_queue_rows_accumulate_witness :
  length (queue gui_two_pending) < 3
  /\ results_list (snd (check_queue 3 gui_two_pending)) =
     results_list gui_two_pending
     ++ concat (map paths_of (queue gui_two_pending)).
Proof.
  split; [vm_compute; lia|].
  apply (@check_queue_rows_accumulate gui_two_pending 3). vm_compute. lia.
Defined.

(** X6. After a call of [check_queue] that found at least one message,
    the progress bar is stopped and hidden and the search button enabled,
    and the status line is that of the last message alone: for a
    [results] message it counts the paths of that message, not the rows
    on display. *)
Theorem check_queue_last_message_wins
  (g : LocateGUI) (earlier : list message) (m : message) (fuel : nat) :
  queue g = earlier ++ [m] ->
  length (queue g) < fuel ->
  let shown := snd (check_queue fuel g) in
  status_var shown = status_of m
  /\ progress_gridded shown = false
  /\ progress_running shown = false
  /\ search_button shown = normal.
Proof.
  intros Hq Hfuel. cbv zeta. rewrite (check_queue_eq g Hfuel), Hq.
  rewrite fold_left_app. cbn [fold_left].
  unfold root_after, modify. cbn [snd].
  now destruct m.
Qed.

Lemma check_queue_last_message_wins_witness :
  let g := set_queue [results [py "/x/a"; py "/x/b"]; results [py "/y"]] init in
  status_var (snd (check_queue 3 g)) = py "Found 1 results"
  /\ length (results_list (snd (check_queue 3 g))) = 3.
Proof.
  cbv zeta. split; [|vm_compute; reflexivity].
  apply (@check_queue_last_message_wins
           (set_queue [results [py "/x/a"; py "/x/b"]; results [py "/y"]] init)
           [results [py "/x/a"; py "/x/b"]] (results [py "/y"]) 3 eq_refl).
  vm_compute. lia.
Defined.

(** ** A whole search *)



(** ** What holds between any two events *)

Section Steady.

Variable os : OS.

Lemma open_selected_file_frame (g : LocateGUI) :
  exists cmds : list cmdline,
    snd (open_selected_file os g) = set_run_calls (run_calls g ++ cmds) g.
Proof.
  unfold open_selected_file, bind, gets, results_list_get, try_except,
    subprocess_run, run, stdout_str, ret.
  destruct (curselection g) as [|first rest].
  - exists []. cbn. rewrite app_nil_r. now destruct g.
  - cbn.
    match goal with
    | |- context [os ?c] => destruct (os c) as [[] ?|? [?|?]]; cbn
    end;
      try (eexists [_]; reflexivity);
      match goal with
      | |- context [os ?c] => destruct (os c) as [[] ?|? ?]; cbn
      end;
      eexists [_; _]; rewrite <- app_assoc; reflexivity.
Qed.

Lemma start_search_steady (g : LocateGUI) :
  steady g -> steady (snd (start_search g)).
Proof.
  intros (Ha & Hp & Hb). unfold start_search, bind, gets.
  destruct (truthy (search_var g)); cbn; unfold steady; cbn; auto.
Qed.

Lemma fold_deliver_in_sync (ms : list message) (g : LocateGUI) :
  progress_gridded g = progress_running g ->
  search_button g = (if progress_running g then disabled else normal) ->
  let g' := fold_left (fun g m => deliver m g) ms g in
  progress_gridded g' = progress_running g'
  /\ search_button g' = (if progress_running g' then disabled else normal).
Proof.
  revert g. induction ms as [|m ms IH]; intros g Hp Hb; cbv zeta; simpl; [auto|].
  apply IH; now destruct m.
Qed.

Lemma step_steady (e : event) (g : LocateGUI) :
  steady g -> steady (step os e g).
Proof.
  intros Hs. destruct e as [s|ic eo bo| | |i| |n| ]; cbn [step].
  - exact Hs.
  - exact Hs.
  - destruct (search_button g); [now apply start_search_steady|exact Hs].
  - now apply start_search_steady.
  - destruct (i <? length (results_list g)); exact Hs.
  - destruct (open_selected_file_frame g) as [cmds ->]. exact Hs.
  - destruct (nth_error (threads g) n) as [search_term|]; [|exact Hs].
    rewrite perform_search_eq. exact Hs.
  - destruct Hs as (Ha & Hp & Hb). rewrite Ha.
    rewrite check_queue_eq by (cbn; lia).
    unfold root_after, modify. cbn [snd queue set_after_calls].
    destruct (fold_deliver_in_sync (queue g)
                (set_queue [] (set_after_calls [] g)) Hp Hb) as [Hp' Hb'].
    unfold steady. cbn [after_calls progress_gridded progress_running
                          search_button set_after_calls].
    rewrite after_calls_fold_deliver. cbn. auto.
Qed.

Lemma run_events_steady (es : list event) (g : LocateGUI) :
  steady g -> steady (run_events os es g).
Proof.
  unfold run_events. revert g.
  induction es as [|e es IH]; intros g Hs; simpl; [exact Hs|].
  apply IH. now apply step_steady.
Qed.

Lemma init_steady : steady init.
Proof. unfold steady. vm_compute. auto. Qed.

End Steady.

(** X7. The poll never stops and never multiplies: after any sequence
    of events, whatever the operating system answers, exactly one call of
    [check_queue] is pending, 100 ms ahead. Each call registers its
    successor even when messages were shown or the queue was empty. *)
Theorem timer_always_pending (os : OS) (es : list event) :
  after_calls (run_events os es init) = [100].
Proof.
  exact (proj1 (run_events_steady os es init_steady)).
Qed.

(** X8. The busy indication and the button agree at all times: after
    any sequence of events the progress bar is shown exactly when it is
    running, and the search button is disabled exactly when it is. *)
Theorem busy_indicator_in_sync (os : OS) (es : list event) :
  let g := run_events os es init in
  progress_gridded g = progress_running g
  /\ (search_button g = disabled <-> progress_running g = true).
Proof.
  cbv zeta.
  destruct (run_events_steady os es init_steady) as (_ & Hp & Hb).
  split; [exact Hp|]. rewrite Hb.
  destruct (progress_running (run_events os es init)); split; congruence.
Qed.

(** ** Triggering searches *)

(** X9. The term of a search is fixed when it is triggered, its options
    when the worker runs: after Return is pressed, editing the entry does
    not change the term the worker looks for, while options changed before
    the worker runs are the ones that make the flags of its command. *)
Theorem term_at_trigger_options_at_run
  (os : OS) (g : LocateGUI) (later_entry : str) (ic eo bo : bool) :
  truthy (search_var g) = true ->
  threads g = [] ->
  run_calls
    (run_events os
       [PressReturn; EditEntry later_entry; SetOptions ic eo bo; WorkerRuns 0] g) =
  run_calls g ++ [locate_command (set_options ic eo bo g) (search_var g)].
Proof.
  intros Hterm Hth. unfold run_events. cbn [fold_left step].
  rewrite (start_search_nonempty _ Hterm). cbn [snd].
  cbn [threads set_threads set_options set_search_var set_status_var
         set_search_button set_progress_running set_progress_gridded
         set_curselection set_results_list].
  rewrite Hth. cbn [app nth_error].
  rewrite perform_search_eq. reflexivity.
Qed.

Lemma term_at_trigger_options_at_run_witness :
  let g := set_search_var (py "old") init in
  truthy (search_var g) = true
  /\ threads g = []
  /\ run_calls
       (run_events os_no_wsl
          [PressReturn; EditEntry (py "new"); SetOptions false false true;
           WorkerRuns 0] g) =
     [[py "wsl"; py "locate"; py "--basename"; py "old"]].
Proof.
  cbv zeta. split; [reflexivity|]. split; [reflexivity|].
  rewrite (@term_at_trigger_options_at_run os_no_wsl
             (set_search_var (py "old") init) (py "new") false false true
             eq_refl eq_refl).
  vm_compute. reflexivity.
Defined.

(** X13. [start_search] does not look at whether a search is running:
    called twice in a row with a non-empty term it starts two workers for
    that term, although the first call has disabled the button. *)
Theorem start_search_not_single_flight (g : LocateGUI) :
  truthy (search_var g) = true ->
  let once := snd (start_search g) in
  let twice := snd (start_search once) in
  search_button once = disabled
  /\ threads once = threads g ++ [search_var g]
  /\ threads twice = threads g ++ [search_var g; search_var g].
Proof.
  intros Hterm. cbv zeta.
  rewrite (start_search_nonempty _ Hterm). cbn [snd].
  rewrite start_search_nonempty by exact Hterm.
  cbn. rewrite <- app_assoc. auto.
Qed.

Lemma start_search_not_single_flight_witness :
  let g := set_search_var (py "a") init in
  truthy (search_var g) = true
  /\ threads (snd (start_search (snd (start_search g)))) = [py "a"; py "a"].
Proof.
  cbv zeta. split; [reflexivity|].
  apply (@start_search_not_single_flight (set_search_var (py "a") init) eq_refl).
Defined.

(** ** Opening a row *)

(** X11. A failure to run [wslpath] (the command cannot be started, or
    its output is not valid UTF-8) leaves [open_selected_file] as an
    exception: the handler, which is for [CalledProcessError], does not
    take it. [explorer.exe] is not run, and nothing but the record of
    commands has changed. The path given to [wslpath] is the row at the
    first selected index. *)
Theorem open_selected_file_wslpath_raises
  (os : OS) (g : LocateGUI) (first : nat) (rest : list nat) (e : exn) :
  curselection g = first :: rest ->
  let cmd := [py "wsl"; py "wslpath"; py "-w"; nth first (results_list g) []] in
  run os cmd true = inl e ->
  open_selected_file os g =
  (Raise e, set_run_calls (run_calls g ++ [cmd]) g).
Proof.
  intros Hsel cmd Hrun. subst cmd.
  unfold open_selected_file, bind at 1, gets. rewrite Hsel. cbn [fst snd].
  unfold bind at 1, results_list_get, gets.
  unfold try_except, bind at 1, subprocess_run at 1. rewrite Hrun.
  unfold run in Hrun.
  destruct (os _) as [[] why|code [out|why]]; inversion Hrun; reflexivity.
Qed.

Lemma open_selected_file_wslpath_raises_witness :
  let g := set_curselection [0] (set_results_list [py "/mnt/c/x"] init) in
  open_selected_file os_no_wsl g =
  (Raise (mk_exn FileNotFoundError
            (py "[WinError 2] The system cannot find the file specified")),
   set_run_calls [[py "wsl"; py "wslpath"; py "-w"; py "/mnt/c/x"]] g).
Proof.
  cbv zeta.
  apply (@open_selected_file_wslpath_raises os_no_wsl
           (set_curselection [0] (set_results_list [py "/mnt/c/x"] init))
           0 [] _ eq_refl eq_refl).
Defined.

(** X12. Whenever [wslpath] runs and its output decodes, whatever its
    return code, [open_selected_file] goes on to run
    [explorer.exe /select,] with the stripped output as the path. It then
    returns normally whatever [explorer.exe] returns, and raises only
    when [explorer.exe] cannot be started. *)
Theorem open_selected_file_runs_explorer
  (os : OS) (g : LocateGUI) (first : nat) (rest : list nat) (rc : Z) (out : str) :
  curselection g = first :: rest ->
  let cmd := [py "wsl"; py "wslpath"; py "-w"; nth first (results_list g) []] in
  let reveal := [py "explorer.exe"; py "/select,"; strip out] in
  os cmd = Exited rc (Text out) ->
  open_selected_file os g =
  (match os reveal with
   | SpawnFails k why => Raise (mk_exn (spawn_error_class k) why)
   | Exited _ _ => Ret tt
   end,
   set_run_calls (run_calls g ++ [cmd; reveal]) g).
Proof.
  intros Hsel cmd reveal Hos. subst cmd reveal.
  unfold open_selected_file, bind, gets, results_list_get, try_except,
    subprocess_run, run, stdout_str, ret.
  rewrite Hsel. unfold gets. cbv beta iota. rewrite Hos.
  cbv beta iota. cbn [stdout run_calls set_run_calls].
  match goal with
  | |- context [match os ?c with _ => _ end] =>
      destruct (os c) as [[] why|code captured_out]
  end; cbn; rewrite <- app_assoc; reflexivity.
Qed.

Lemma open_selected_file_runs_explorer_witness :
  let g := set_curselection [0] (set_results_list [py "/mnt/c/x"] init) in
  open_selected_file os_wslpath_fails g =
  (Ret tt,
   set_run_calls [[py "wsl"; py "wslpath"; py "-w"; py "/mnt/c/x"];
                  [py "explorer.exe"; py "/select,"; []]] g).
Proof.
  cbv zeta.
  apply (@open_selected_file_runs_explorer os_wslpath_fails
           (set_curselection [0] (set_results_list [py "/mnt/c/x"] init))
           0 [] 1 [] eq_refl eq_refl).
Defined.

Lemma init_unfold : init = set_after_calls [100] new_gui.
Proof. vm_compute. reflexivity. Qed.

(** X14. The first search of a fresh window, options untouched: for
    any non-empty term typed in the entry, a click on the button and the
    worker's run give the command
    [wsl locate --ignore-case --existing term], the term kept as typed. *)
Theorem default_search_command (os : OS) (term : str) :
  truthy term = true ->
  run_calls (run_events os [EditEntry term; ClickSearch; WorkerRuns 0] init) =
  [[py "wsl"; py "locate"; py "--ignore-case"; py "--existing"; term]].
Proof.
  intros Hterm. rewrite init_unfold. unfold run_events, new_gui.
  cbn [fold_left]. cbn [step set_search_var set_after_calls search_button].
  rewrite start_search_nonempty by exact Hterm.
  cbn -[py perform_search]. rewrite perform_search_eq. reflexivity.
Qed.

Lemma default_search_command_witness :
  truthy (py " ") = true
  /\ run_calls (run_events os_no_wsl
                  [EditEntry (py " "); ClickSearch; WorkerRuns 0] init) =
     [[py "wsl"; py "locate"; py "--ignore-case"; py "--existing"; py " "]].
Proof.
  split; [reflexivity|].
  apply (@default_search_command os_no_wsl (py " ") eq_refl).
Defined.
